(** * The ollama-hello sample: tool, flows and driver

    A shallow embedding of [py/samples/ollama-hello/src/hello.py].

    Python integers are unbounded, so [int] is [Z].  The three flows are
    coroutines that await one call of [ai.generate] each; they are written
    in a small monad that threads the log of observable events (calls to
    the model backend, lines printed) and an exception outcome.  The
    framework and the model server are not part of the sample: the backend
    is a section variable, and so are [ollama_name], [json.loads] and the
    two [model_validate] class methods; the decorator [ai.flow()] is
    modelled from the specification. *)

From Stdlib Require Import ZArith String Ascii List Bool Lia DecimalString.
From Stdlib Require DecimalPos DecimalZ.
Import ListNotations.

Local Open Scope string_scope.
Local Open Scope list_scope.
Local Open Scope Z_scope.

(** ** Module constants and plugin configuration *)

Definition GEMMA_MODEL : string := "gemma2:latest".

Definition MISTRAL_MODEL : string := "mistral-nemo:latest".

(** Modelled from the spec: the declarations of [OllamaAPITypes],
    [ModelDefinition] and [OllamaPluginParams] (genkit.plugins.ollama.models)
    are missing; a model definition is a name and an API style tag. *)
Inductive OllamaAPITypes : Type := CHAT | GENERATE.

Record ModelDefinition : Type := mkModelDefinition
  { name : string; api_type : OllamaAPITypes }.

Record OllamaPluginParams : Type := mkOllamaPluginParams
  { models : list ModelDefinition }.

Definition plugin_params : OllamaPluginParams :=
  {| models :=
       [ {| name := GEMMA_MODEL; api_type := CHAT |};
         {| name := MISTRAL_MODEL; api_type := CHAT |} ] |}.

(** ** Messages, schemas and requests *)

(** Modelled from the spec: the declarations of [Role], [TextPart] and
    [Message] (genkit.core.typing) are missing; a message is a role tag and a
    sequence of content parts, text-only here. *)
Inductive Role : Type := USER | MODEL | SYSTEM | TOOL.

Record TextPart : Type := mkTextPart { text : string }.

Record Message : Type := mkMessage { role : Role; content : list TextPart }.

Module HelloSchema.
Record t : Type := mk { text : string; receiver : string }.
End HelloSchema.

Module GablorkenOutputSchema.
Record t : Type := mk { result : Z }.
End GablorkenOutputSchema.

(** The class objects passed as [output_schema=...]. *)
Inductive Schema : Type := HelloSchema_cls | GablorkenOutputSchema_cls.

(** The keyword arguments of one [ai.generate] call; an argument the call
    does not pass is [None]. *)
Record GenerateRequest : Type := mkGenerateRequest
  { model : option string;
    messages : list Message;
    output_schema : option Schema;
    tools : option (list string) }.

(** Modelled from the spec: the declaration of the object [ai.generate]
    returns is missing; the flows read [response.message.content]. *)
Record GenerateResponse : Type := mkGenerateResponse { message : Message }.

(** ** The tool *)

Definition gablorken_tool (input : Z) : Z := input * 3 - 5.

Record ToolDefinition : Type := mkToolDefinition
  { tool_name : string; tool_description : string; tool_fn : Z -> Z }.

(** Modelled from the spec: the decorator [ai.tool] (genkit.ai) is missing;
    a tool is a name, a description and a function.  The description is the
    decorator's argument; the name is taken to be the function's, which is
    how line 120 refers to the tool. *)
Definition registered_tools : list ToolDefinition :=
  [ {| tool_name := "gablorken_tool";
       tool_description := "calculates a gablorken";
       tool_fn := gablorken_tool |} ].

(** ** Name resolution

    A name used in a function body is looked up when the line runs: first in
    the module's globals, then in the builtins. *)

Definition imported_names : list string :=
  [ "BaseModel"; "Genkit"; "Message"; "Role"; "TextPart"; "Ollama";
    "ollama_name"; "ModelDefinition"; "OllamaAPITypes"; "OllamaPluginParams" ].

Definition defined_names : list string :=
  [ "GEMMA_MODEL"; "MISTRAL_MODEL"; "plugin_params"; "ai"; "HelloSchema";
    "on_chunk"; "GablorkenOutputSchema"; "gablorken_tool"; "say_hi";
    "calculate_gablorken"; "say_hi_constrained"; "main" ].

Definition module_globals : list string :=
  ("__name__" :: imported_names) ++ defined_names.

(** The names of the interpreter's [builtins] module: functions, constants
    and exception classes. *)
Definition builtins : list string :=
  [ "ArithmeticError"; "AssertionError"; "AttributeError"; "BaseException";
    "BaseExceptionGroup"; "BlockingIOError"; "BrokenPipeError"; "BufferError";
    "BytesWarning"; "ChildProcessError"; "ConnectionAbortedError";
    "ConnectionError"; "ConnectionRefusedError"; "ConnectionResetError";
    "DeprecationWarning"; "EOFError"; "Ellipsis"; "EncodingWarning";
    "EnvironmentError"; "Exception"; "ExceptionGroup"; "False";
    "FileExistsError"; "FileNotFoundError"; "FloatingPointError";
    "FutureWarning"; "GeneratorExit"; "IOError"; "ImportError";
    "ImportWarning"; "IndentationError"; "IndexError"; "InterruptedError";
    "IsADirectoryError"; "KeyError"; "KeyboardInterrupt"; "LookupError";
    "MemoryError"; "ModuleNotFoundError"; "NameError"; "None";
    "NotADirectoryError"; "NotImplemented"; "NotImplementedError"; "OSError";
    "OverflowError"; "PendingDeprecationWarning"; "PermissionError";
    "ProcessLookupError"; "RecursionError"; "ReferenceError";
    "ResourceWarning"; "RuntimeError"; "RuntimeWarning"; "StopAsyncIteration";
    "StopIteration"; "SyntaxError"; "SyntaxWarning"; "SystemError";
    "SystemExit"; "TabError"; "TimeoutError"; "True"; "TypeError";
    "UnboundLocalError"; "UnicodeDecodeError"; "UnicodeEncodeError";
    "UnicodeError"; "UnicodeTranslateError"; "UnicodeWarning"; "UserWarning";
    "ValueError"; "Warning"; "ZeroDivisionError"; "__build_class__";
    "__debug__"; "__doc__"; "__import__"; "__loader__"; "__name__";
    "__package__"; "__spec__"; "abs"; "aiter"; "all"; "anext"; "any"; "ascii";
    "bin"; "bool"; "breakpoint"; "bytearray"; "bytes"; "callable"; "chr";
    "classmethod"; "compile"; "complex"; "copyright"; "credits"; "delattr";
    "dict"; "dir"; "divmod"; "enumerate"; "eval"; "exec"; "exit"; "filter";
    "float"; "format"; "frozenset"; "getattr"; "globals"; "hasattr"; "hash";
    "help"; "hex"; "id"; "input"; "int"; "isinstance"; "issubclass"; "iter";
    "len"; "license"; "list"; "locals"; "map"; "max"; "memoryview"; "min";
    "next"; "object"; "oct"; "open"; "ord"; "pow"; "print"; "property";
    "quit"; "range"; "repr"; "reversed"; "round"; "set"; "setattr"; "slice";
    "sorted"; "staticmethod"; "str"; "sum"; "super"; "tuple"; "type"; "vars";
    "zip" ].

Definition is_bound (x : string) : bool :=
  existsb (String.eqb x) module_globals || existsb (String.eqb x) builtins.

(** ** Exceptions, events and the flow monad *)

Inductive Exn : Type :=
| NameError (x : string)
| IndexError
| ValueError
| JSONDecodeError (doc : string)
| ValidationError (schema : Schema)
| BackendError (msg : string).

(** What [print] is given by [main]. *)
Inductive Value : Type :=
| VResponse (r : GenerateResponse)
| VHello (h : HelloSchema.t)
| VGablorken (g : GablorkenOutputSchema.t).

Inductive Event : Type :=
| Generated (req : GenerateRequest)
| Printed (v : Value).

Definition Trace : Type := list Event.

(** A computation extends the trace and either raises or returns. *)
Definition M (A : Type) : Type := Trace -> (Exn + A) * Trace.

Definition ret {A : Type} (a : A) : M A := fun tr => (inr a, tr).

Definition raise {A : Type} (e : Exn) : M A := fun tr => (inl e, tr).

Definition bind {A B : Type} (m : M A) (k : A -> M B) : M B :=
  fun tr =>
    match m tr with
    | (inl e, tr') => (inl e, tr')
    | (inr a, tr') => k a tr'
    end.

Definition lift {A : Type} (r : Exn + A) : M A := fun tr => (r, tr).

Declare Scope flow_scope.
Delimit Scope flow_scope with flow.
Notation "x <- m ;; k" := (bind m (fun x => k))
  (at level 61, m at next level, right associativity) : flow_scope.
Notation "m ;; k" := (bind m (fun _ => k))
  (at level 61, right associativity) : flow_scope.
Local Open Scope flow_scope.

Definition load_global (x : string) : M unit :=
  if is_bound x then ret tt else raise (NameError x).

Definition print (v : Value) : M unit := fun tr => (inr tt, tr ++ [Printed v]).

(** The requests sent to the backend so far, oldest first. *)
Fixpoint generate_calls (tr : Trace) : list GenerateRequest :=
  match tr with
  | [] => []
  | Generated req :: tr' => req :: generate_calls tr'
  | Printed _ :: tr' => generate_calls tr'
  end.

(** The decimal digits of an integer, with a minus sign when it is negative:
    what [str(value)] returns when it returns. *)
Definition str_int (value : Z) : string := NilZero.string_of_int (Z.to_int value).

(** The interpreter's default limit on the number of digits of an integer
    that is converted to text ([sys.get_int_max_str_digits()]). *)
Definition int_max_str_digits : Z := 4300.

(** The least magnitude with more digits than the limit. *)
Definition int_str_bound : Z := 10 ^ int_max_str_digits.

(** [f'{value}']: the conversion raises [ValueError] for an integer of more
    than [int_max_str_digits] digits, and gives the digits otherwise. *)
Definition format_int (value : Z) : M string :=
  if int_str_bound <=? Z.abs value then raise ValueError
  else ret (str_int value).

(** Modelled from the spec: the decorator [ai.flow()] (genkit.ai) is missing.
    A flow is the decorated function exposed as a callable unit; it
    propagates whatever failure the underlying call raises, without local
    recovery. *)
Definition ai_flow {A B : Type} (fn : A -> M B) : A -> M B := fn.

Definition dquote : string := String "034"%char EmptyString.

(** ** The flows and the driver *)

Section Flows.

(** [ollama_name] of the plugin package, which turns a model's name into
    the key the framework knows it by. *)
Variable ollama_name : string -> string.

(** The model backend behind [ai.generate].  The outcome of a call may
    depend on everything that happened before it, so two calls with the
    same request need not agree. *)
Variable generate_backend : Trace -> GenerateRequest -> Exn + GenerateResponse.

(** [json.loads] and the [model_validate] class methods of the two
    schemas, as the libraries would provide them. *)
Variable JSON : Type.
Variable json_loads : string -> Exn + JSON.
Variable HelloSchema_model_validate : JSON -> Exn + HelloSchema.t.
Variable GablorkenOutputSchema_model_validate :
  JSON -> Exn + GablorkenOutputSchema.t.

(** [await ai.generate(...)]: one call of the backend, logged whether it
    returns or raises. *)
Definition ai_generate (req : GenerateRequest) : M GenerateResponse :=
  fun tr => (generate_backend tr req, tr ++ [Generated req]).

(** [l[0]] *)
Definition subscript0 {A : Type} (l : list A) : M A :=
  match l with
  | [] => raise IndexError
  | x :: _ => ret x
  end.

Definition say_hi (hi_input : string) : M GenerateResponse :=
  ai_flow
    (fun hi_input =>
       ai_generate
         {| model := Some (ollama_name GEMMA_MODEL);
            messages :=
              [ {| role := USER;
                   content := [ {| text := ("hi " ++ hi_input)%string |} ] |} ];
            output_schema := None;
            tools := None |})
    hi_input.

Definition calculate_gablorken (value : Z) : M GablorkenOutputSchema.t :=
  ai_flow
    (fun value =>
       rendered <- format_int value ;;
       response <-
         ai_generate
           {| messages :=
                [ {| role := USER;
                     content :=
                       [ {| text :=
                              ("run " ++ dquote ++ "gablorken_tool" ++ dquote
                                 ++ " for " ++ rendered)%string |} ] |} ];
              output_schema := Some GablorkenOutputSchema_cls;
              model := Some (ollama_name MISTRAL_MODEL);
              tools := Some [ "gablorken_tool" ] |} ;;
       part <- subscript0 (content (message response)) ;;
       let message_raw := text part in
       load_global "GablorkenOutputSchema" ;;
       load_global "json" ;;
       data <- lift (json_loads message_raw) ;;
       lift (GablorkenOutputSchema_model_validate data))
    value.

Definition say_hi_constrained (hi_input : string) : M HelloSchema.t :=
  ai_flow
    (fun hi_input =>
       response <-
         ai_generate
           {| messages :=
                [ {| role := USER;
                     content :=
                       [ {| text := ("hi " ++ hi_input)%string |} ] |} ];
              output_schema := Some HelloSchema_cls;
              model := None;
              tools := None |} ;;
       part <- subscript0 (content (message response)) ;;
       let message_raw := text part in
       load_global "HelloSchema" ;;
       load_global "json" ;;
       data <- lift (json_loads message_raw) ;;
       lift (HelloSchema_model_validate data))
    hi_input.

Definition main : M unit :=
  r1 <- say_hi "John Doe" ;;
  print (VResponse r1) ;;
  r2 <- say_hi_constrained "John Doe" ;;
  print (VHello r2) ;;
  r3 <- calculate_gablorken 3 ;;
  print (VGablorken r3).

(** The module's last statement, [if __name__ == '__main__':
    asyncio.run(main())]: the name [asyncio] is looked up before [main()]
    is evaluated. *)
Definition script (dunder_name : string) : M unit :=
  if String.eqb dunder_name "__main__" then
    load_global "asyncio" ;;
    load_global "main" ;;
    main
  else ret tt.

End Flows.

Arguments subscript0 {A} l _.
Arguments calculate_gablorken ollama_name generate_backend {JSON} json_loads
  GablorkenOutputSchema_model_validate value _.
Arguments say_hi_constrained generate_backend {JSON} json_loads
  HelloSchema_model_validate hi_input _.
Arguments main ollama_name generate_backend {JSON} json_loads
  HelloSchema_model_validate GablorkenOutputSchema_model_validate _.
Arguments script ollama_name generate_backend {JSON} json_loads
  HelloSchema_model_validate GablorkenOutputSchema_model_validate
  dunder_name _.

(** ** The request each flow builds

    The request of [calculate_gablorken] is the one it sends when the
    instruction can be formatted. *)

Definition greeting (hi_input : string) : list Message :=
  [ {| role := USER;
       content := [ {| text := ("hi " ++ hi_input)%string |} ] |} ].

Definition say_hi_request (ollama_name : string -> string)
    (hi_input : string) : GenerateRequest :=
  {| model := Some (ollama_name GEMMA_MODEL);
     messages := greeting hi_input;
     output_schema := None;
     tools := None |}.

Definition say_hi_constrained_request (hi_input : string) : GenerateRequest :=
  {| model := None;
     messages := greeting hi_input;
     output_schema := Some HelloSchema_cls;
     tools := None |}.

Definition calculate_gablorken_request (ollama_name : string -> string)
    (value : Z) : GenerateRequest :=
  {| model := Some (ollama_name MISTRAL_MODEL);
     messages :=
       [ {| role := USER;
            content :=
              [ {| text :=
                     ("run " ++ dquote ++ "gablorken_tool" ++ dquote
                        ++ " for " ++ str_int value)%string |} ] |} ];
     output_schema := Some GablorkenOutputSchema_cls;
     tools := Some [ "gablorken_tool" ] |}.

(** What a flow that reaches its last line does with a response: the first
    content part is read, then the name [json] is looked up. *)
Definition outcome_after_generate {A : Type}
    (r : Exn + GenerateResponse) : Exn + A :=
  match r with
  | inl e => inl e
  | inr response =>
      match content (message response) with
      | [] => inl IndexError
      | _ :: _ => inl (NameError "json")
      end
  end.

(** ** Concrete surroundings used to run the flows *)

(** The plugin's [ollama_name] prefixes the model's name. *)
Definition ollama_prefix (model_name : string) : string :=
  ("ollama/" ++ model_name)%string.

(** A backend that answers every request with one text part. *)
Definition reply (raw : string) : GenerateResponse :=
  {| message := {| role := MODEL; content := [ {| text := raw |} ] |} |}.

Definition respond_with (raw : string) :
    Trace -> GenerateRequest -> Exn + GenerateResponse :=
  fun _ _ => inr (reply raw).

(** A backend whose every call raises [e]. *)
Definition failing_backend (e : Exn) :
    Trace -> GenerateRequest -> Exn + GenerateResponse :=
  fun _ _ => inl e.

(** The text [{"text": "hi John Doe", "receiver": "John Doe"}]. *)
Definition hello_json : string :=
  ("{" ++ dquote ++ "text" ++ dquote ++ ": " ++ dquote ++ "hi John Doe"
     ++ dquote ++ ", " ++ dquote ++ "receiver" ++ dquote ++ ": " ++ dquote
     ++ "John Doe" ++ dquote ++ "}")%string.

(** The text [{"result": 4}]. *)
Definition gablorken_json : string :=
  ("{" ++ dquote ++ "result" ++ dquote ++ ": 4}")%string.

(** A JSON library that rejects every document, for closed runs. *)
Definition rejecting_loads (doc : string) : Exn + unit :=
  inl (JSONDecodeError doc).

(** The names the three flows, [main] and the last statement look up. *)
Definition names_used : list string :=
  [ "ai"; "ollama_name"; "GEMMA_MODEL"; "MISTRAL_MODEL"; "Message"; "Role";
    "TextPart"; "HelloSchema"; "GablorkenOutputSchema"; "json"; "print";
    "say_hi"; "say_hi_constrained"; "calculate_gablorken"; "__name__";
    "asyncio"; "main" ].

(** ** The framework object and the flows as a backend sees them *)

(** The keyword arguments of [Genkit(...)]: the plugins with their
    parameters, and the default model (the keyword [model]). *)
Record Genkit : Type := mkGenkit
  { plugins : list OllamaPluginParams; default_model : string }.

Definition ai (ollama_name : string -> string) : Genkit :=
  {| plugins := [ plugin_params ];
     default_model := ollama_name GEMMA_MODEL |}.

(** An invocation of one of the three flows. *)
Inductive Flow : Type :=
| SayHi (hi_input : string)
| SayHiConstrained (hi_input : string)
| CalculateGablorken (value : Z).

Definition request_of (ollama_name : string -> string) (f : Flow) :
    GenerateRequest :=
  match f with
  | SayHi hi_input => say_hi_request ollama_name hi_input
  | SayHiConstrained hi_input => say_hi_constrained_request hi_input
  | CalculateGablorken value => calculate_gablorken_request ollama_name value
  end.

(** What has been printed so far, oldest first. *)
Fixpoint printed_values (tr : Trace) : list Value :=
  match tr with
  | [] => []
  | Generated _ :: tr' => printed_values tr'
  | Printed v :: tr' => v :: printed_values tr'
  end.

(** A response whose message has no content part, and a backend that
    answers every request with it. *)
Definition empty_reply : GenerateResponse :=
  {| message := {| role := MODEL; content := [] |} |}.

Definition respond_empty :
    Trace -> GenerateRequest -> Exn + GenerateResponse :=
  fun _ _ => inr empty_reply.

(** A backend that answers the first call of a run and raises [e] at
    every later one. *)
Definition fail_after_first (e : Exn) (raw : string) :
    Trace -> GenerateRequest -> Exn + GenerateResponse :=
  fun tr _ =>
    match tr with
    | [] => inr (reply raw)
    | _ :: _ => inl e
    end.

(** * Properties *)

(** ** Name resolution *)

Lemma json_unbound : is_bound "json" = false.
Proof. reflexivity. Qed.

Lemma asyncio_unbound : is_bound "asyncio" = false.
Proof. reflexivity. Qed.

(** Of all the names the code looks up, [json] and [asyncio] are the only
    ones that resolve nowhere. *)
Lemma unbound_names_used :
  filter (fun x => negb (is_bound x)) names_used = [ "json"; "asyncio" ].
Proof. reflexivity. Qed.

Lemma load_global_json : load_global "json" = raise (NameError "json").
Proof. reflexivity. Qed.

Lemma load_global_asyncio : load_global "asyncio" = raise (NameError "asyncio").
Proof. reflexivity. Qed.

Lemma load_global_HelloSchema : load_global "HelloSchema" = ret tt.
Proof. reflexivity. Qed.

Lemma load_global_GablorkenOutputSchema :
  load_global "GablorkenOutputSchema" = ret tt.
Proof. reflexivity. Qed.

(** ** The monad and the trace *)

Lemma bind_ret_l {A B : Type} (a : A) (k : A -> M B) (tr : Trace) :
  bind (ret a) k tr = k a tr.
Proof. reflexivity. Qed.

Lemma bind_raise {A B : Type} (e : Exn) (k : A -> M B) (tr : Trace) :
  bind (raise e) k tr = (inl e, tr).
Proof. reflexivity. Qed.

Lemma bind_ret_r {A : Type} (m : M A) (tr : Trace) : bind m ret tr = m tr.
Proof.
  unfold bind, ret. destruct (m tr) as [[e | a] tr']; reflexivity.
Qed.

Lemma bind_assoc {A B C : Type} (m : M A) (k : A -> M B) (h : B -> M C)
    (tr : Trace) :
  bind (bind m k) h tr = bind m (fun a => bind (k a) h) tr.
Proof.
  unfold bind. destruct (m tr) as [[e | a] tr']; reflexivity.
Qed.

Lemma generate_calls_app (tr1 tr2 : Trace) :
  generate_calls (tr1 ++ tr2) = generate_calls tr1 ++ generate_calls tr2.
Proof.
  induction tr1 as [| [req | v] tr1 IH]; simpl.
  - reflexivity.
  - now rewrite IH.
  - exact IH.
Qed.

Lemma generate_calls_snoc (tr : Trace) (req : GenerateRequest) :
  generate_calls (tr ++ [Generated req]) = generate_calls tr ++ [req].
Proof. now rewrite generate_calls_app. Qed.

Lemma generate_calls_printed (tr : Trace) (v : Value) :
  generate_calls (tr ++ [Printed v]) = generate_calls tr.
Proof. rewrite generate_calls_app. simpl. apply app_nil_r. Qed.

(** ** Formatting an integer *)

Lemma format_int_below (value : Z) :
  Z.abs value < int_str_bound -> format_int value = ret (str_int value).
Proof.
  intros H. unfold format_int.
  destruct (Z.leb_spec int_str_bound (Z.abs value)); [lia | reflexivity].
Qed.

Lemma format_int_beyond (value : Z) :
  int_str_bound <= Z.abs value -> format_int value = raise ValueError.
Proof.
  intros H. unfold format_int.
  destruct (Z.leb_spec int_str_bound (Z.abs value)); [reflexivity | lia].
Qed.

Lemma three_below_int_str_bound : (int_str_bound <=? Z.abs 3) = false.
Proof. vm_compute. reflexivity. Qed.

Lemma int_str_bound_beyond : (int_str_bound <=? Z.abs (10 ^ 4300)) = true.
Proof. vm_compute. reflexivity. Qed.

(** ** The flows, run against an arbitrary backend *)

Section FlowProperties.

Variable ollama_name : string -> string.
Variable generate_backend : Trace -> GenerateRequest -> Exn + GenerateResponse.
Variable JSON : Type.
Variable json_loads : string -> Exn + JSON.
Variable HelloSchema_model_validate : JSON -> Exn + HelloSchema.t.
Variable GablorkenOutputSchema_model_validate :
  JSON -> Exn + GablorkenOutputSchema.t.

Local Abbreviation say_hi' := (say_hi ollama_name generate_backend).
Local Abbreviation say_hi_constrained' :=
  (say_hi_constrained generate_backend json_loads HelloSchema_model_validate).
Local Abbreviation calculate_gablorken' :=
  (calculate_gablorken ollama_name generate_backend json_loads
     GablorkenOutputSchema_model_validate).
Local Abbreviation main' :=
  (main ollama_name generate_backend json_loads HelloSchema_model_validate
     GablorkenOutputSchema_model_validate).
Local Abbreviation script' :=
  (script ollama_name generate_backend json_loads HelloSchema_model_validate
     GablorkenOutputSchema_model_validate).

Lemma say_hi_run (hi_input : string) (tr : Trace) :
  say_hi' hi_input tr =
    (generate_backend tr (say_hi_request ollama_name hi_input),
     tr ++ [Generated (say_hi_request ollama_name hi_input)]).
Proof. reflexivity. Qed.

Lemma say_hi_constrained_run (hi_input : string) (tr : Trace) :
  say_hi_constrained' hi_input tr =
    (outcome_after_generate
       (generate_backend tr (say_hi_constrained_request hi_input)),
     tr ++ [Generated (say_hi_constrained_request hi_input)]).
Proof.
  unfold say_hi_constrained, ai_flow, bind, ai_generate.
  fold (greeting hi_input). fold (say_hi_constrained_request hi_input).
  destruct (generate_backend tr _) as [e | response]; [reflexivity |].
  unfold outcome_after_generate.
  destruct (content (message response)) as [| part rest]; reflexivity.
Qed.

(** [calculate_gablorken] formats its instruction first: beyond the digit
    limit that raises and nothing is sent. *)
Lemma calculate_gablorken_run (value : Z) (tr : Trace) :
  calculate_gablorken' value tr =
    if int_str_bound <=? Z.abs value then (inl ValueError, tr)
    else
      (outcome_after_generate
         (generate_backend tr (calculate_gablorken_request ollama_name value)),
       tr ++ [Generated (calculate_gablorken_request ollama_name value)]).
Proof.
  unfold calculate_gablorken, ai_flow. unfold bind at 1. unfold format_int.
  destruct (int_str_bound <=? Z.abs value); [reflexivity |].
  unfold ret at 1. unfold bind, ai_generate.
  fold (calculate_gablorken_request ollama_name value).
  destruct (generate_backend tr _) as [e | response]; [reflexivity |].
  unfold outcome_after_generate.
  destruct (content (message response)) as [| part rest]; reflexivity.
Qed.

Lemma calculate_gablorken_run_below (value : Z) (tr : Trace) :
  Z.abs value < int_str_bound ->
  calculate_gablorken' value tr =
    (outcome_after_generate
       (generate_backend tr (calculate_gablorken_request ollama_name value)),
     tr ++ [Generated (calculate_gablorken_request ollama_name value)]).
Proof.
  intros H. rewrite calculate_gablorken_run.
  destruct (Z.leb_spec int_str_bound (Z.abs value)); [lia | reflexivity].
Qed.

Lemma calculate_gablorken_run_beyond (value : Z) (tr : Trace) :
  int_str_bound <= Z.abs value ->
  calculate_gablorken' value tr = (inl ValueError, tr).
Proof.
  intros H. rewrite calculate_gablorken_run.
  destruct (Z.leb_spec int_str_bound (Z.abs value)); [reflexivity | lia].
Qed.

Lemma outcome_after_generate_raises {A : Type}
    (r : Exn + GenerateResponse) (a : A) :
  outcome_after_generate r <> inr a.
Proof.
  unfold outcome_after_generate.
  destruct r as [e | response]; [discriminate |].
  destruct (content (message response)); discriminate.
Qed.

(** [main] stops in [say_hi_constrained] at the latest. *)
Lemma main_run (tr : Trace) :
  main' tr =
    match generate_backend tr (say_hi_request ollama_name "John Doe") with
    | inl e => (inl e, tr ++ [Generated (say_hi_request ollama_name "John Doe")])
    | inr r1 =>
        let tr2 :=
          (tr ++ [Generated (say_hi_request ollama_name "John Doe")])
            ++ [Printed (VResponse r1)] in
        (outcome_after_generate
           (generate_backend tr2 (say_hi_constrained_request "John Doe")),
         tr2 ++ [Generated (say_hi_constrained_request "John Doe")])
    end.
Proof.
  unfold main. unfold bind at 1. rewrite say_hi_run.
  destruct (generate_backend tr _) as [e | r1]; [reflexivity |].
  unfold bind at 1. unfold print at 1. unfold bind at 1.
  rewrite say_hi_constrained_run. cbv zeta.
  unfold outcome_after_generate.
  destruct (generate_backend _ (say_hi_constrained_request "John Doe"))
    as [e | response]; [reflexivity |].
  destruct (content (message response)); reflexivity.
Qed.

(** C2: for every string [hi_input], [say_hi] adds exactly one event to the
    trace, a backend call whose request holds one user message whose only
    content part is the text ["hi " ++ hi_input]; the request names the
    first configured model (gemma2), carries no output schema and no tool
    list; and the flow's outcome is the backend's outcome, untouched. *)
Theorem say_hi_sends_greeting (hi_input : string) (tr : Trace) :
  exists req : GenerateRequest,
    snd (say_hi' hi_input tr) = tr ++ [Generated req]
    /\ fst (say_hi' hi_input tr) = generate_backend tr req
    /\ (exists m : Message,
          messages req = [m] /\ role m = USER
          /\ map text (content m) = [ ("hi " ++ hi_input)%string ])
    /\ model req = Some (ollama_name GEMMA_MODEL)
    /\ hd_error (map name (models plugin_params)) = Some GEMMA_MODEL
    /\ GEMMA_MODEL = "gemma2:latest"
    /\ output_schema req = None
    /\ tools req = None.
Proof.
  exists (say_hi_request ollama_name hi_input).
  rewrite say_hi_run. simpl.
  repeat split.
  exists {| role := USER;
            content := [ {| text := ("hi " ++ hi_input)%string |} ] |}.
  repeat split.
Qed.

(** C7: whatever happened before and whatever the backend answers, one
    invocation of [say_hi] or [say_hi_constrained], and one invocation of
    [calculate_gablorken] with a value of at most 4300 digits, makes exactly
    one backend call and adds nothing else to the trace, and its outcome is
    computed from that call's answer; a request already sent is sent again
    (no caching), and two invocations in a row make two calls (no batching).
    With a value of more than 4300 digits [calculate_gablorken] raises
    [ValueError] while it formats the instruction, and calls nothing. *)
Theorem one_backend_call_per_invocation
    (hi_input : string) (value : Z) (tr : Trace) :
  (say_hi' hi_input tr
     = (generate_backend tr (say_hi_request ollama_name hi_input),
        tr ++ [Generated (say_hi_request ollama_name hi_input)])
   /\ say_hi_constrained' hi_input tr
     = (outcome_after_generate
          (generate_backend tr (say_hi_constrained_request hi_input)),
        tr ++ [Generated (say_hi_constrained_request hi_input)])
   /\ (Z.abs value < int_str_bound ->
       calculate_gablorken' value tr
       = (outcome_after_generate
            (generate_backend tr
               (calculate_gablorken_request ollama_name value)),
          tr ++ [Generated (calculate_gablorken_request ollama_name value)]))
   /\ (int_str_bound <= Z.abs value ->
       calculate_gablorken' value tr = (inl ValueError, tr)))
  /\ (length (generate_calls (snd (say_hi' hi_input tr)))
        = S (length (generate_calls tr))
      /\ length (generate_calls (snd (say_hi_constrained' hi_input tr)))
        = S (length (generate_calls tr))
      /\ (Z.abs value < int_str_bound ->
          length (generate_calls (snd (calculate_gablorken' value tr)))
          = S (length (generate_calls tr)))
      /\ (int_str_bound <= Z.abs value ->
          length (generate_calls (snd (calculate_gablorken' value tr)))
          = length (generate_calls tr)))
  /\ (length (generate_calls
                (snd (say_hi' hi_input (snd (say_hi' hi_input tr)))))
        = S (S (length (generate_calls tr)))
      /\ length (generate_calls
                   (snd (say_hi_constrained' hi_input
                           (snd (say_hi_constrained' hi_input tr)))))
        = S (S (length (generate_calls tr)))
      /\ (Z.abs value < int_str_bound ->
          length (generate_calls
                    (snd (calculate_gablorken' value
                            (snd (calculate_gablorken' value tr)))))
          = S (S (length (generate_calls tr))))).
Proof.
  repeat rewrite say_hi_run. repeat rewrite say_hi_constrained_run.
  cbn [snd]. repeat rewrite generate_calls_snoc.
  repeat rewrite length_app. cbn [length].
  split; [| split].
  - split; [reflexivity |]. split; [reflexivity |]. split.
    + apply calculate_gablorken_run_below.
    + apply calculate_gablorken_run_beyond.
  - split; [lia |]. split; [lia |]. split; intros H.
    + rewrite calculate_gablorken_run_below by exact H. cbn [snd].
      rewrite generate_calls_snoc, length_app. cbn [length]. lia.
    + rewrite calculate_gablorken_run_beyond by exact H. reflexivity.
  - split; [lia |]. split; [lia |]. intros H.
    rewrite !calculate_gablorken_run_below by exact H. cbn [snd].
    rewrite !generate_calls_snoc, !length_app. cbn [length]. lia.
Qed.

(** C8: if the [ai.generate] call a flow makes raises [e], whatever [e] is,
    the flow raises that same [e] to its caller, and the trace shows the
    single call: no second attempt and no other exception in its place.
    The flows are the functions as [ai_flow] exposes them;
    [calculate_gablorken] makes its call when the value has at most 4300
    digits. *)
Theorem flows_propagate_backend_failure
    (e : Exn) (hi_input : string) (value : Z) (tr : Trace) :
  (generate_backend tr (say_hi_request ollama_name hi_input) = inl e ->
   say_hi' hi_input tr
     = (inl e, tr ++ [Generated (say_hi_request ollama_name hi_input)]))
  /\ (generate_backend tr (say_hi_constrained_request hi_input) = inl e ->
      say_hi_constrained' hi_input tr
        = (inl e, tr ++ [Generated (say_hi_constrained_request hi_input)]))
  /\ (Z.abs value < int_str_bound ->
      generate_backend tr (calculate_gablorken_request ollama_name value)
        = inl e ->
      calculate_gablorken' value tr
        = (inl e,
           tr ++ [Generated (calculate_gablorken_request ollama_name value)])).
Proof.
  rewrite say_hi_run, say_hi_constrained_run.
  split; [| split].
  - intros ->. reflexivity.
  - intros ->. reflexivity.
  - intros Hv He. rewrite calculate_gablorken_run_below by exact Hv.
    rewrite He. reflexivity.
Qed.

(** C10: as the module is written, [say_hi_constrained] and
    [calculate_gablorken] raise [NameError] for [json] as soon as the
    response has a first content part, whatever its text; they raise the
    backend's exception or [IndexError] otherwise ([calculate_gablorken]
    raises [ValueError] before its call when the value has more than 4300
    digits), and so never return a record.  The last statement of the script
    raises [NameError] for [asyncio] before anything else happens. *)
Theorem parsing_step_raises_NameError
    (hi_input : string) (value : Z) (tr : Trace) :
  fst (say_hi_constrained' hi_input tr)
    = outcome_after_generate
        (generate_backend tr (say_hi_constrained_request hi_input))
  /\ fst (calculate_gablorken' value tr)
    = (if int_str_bound <=? Z.abs value then inl ValueError
       else
         outcome_after_generate
           (generate_backend tr
              (calculate_gablorken_request ollama_name value)))
  /\ (forall (sender : Role) (part : TextPart) (rest : list TextPart),
        let response :=
          {| message := {| role := sender; content := part :: rest |} |} in
        @outcome_after_generate HelloSchema.t (inr response)
          = inl (NameError "json")
        /\ @outcome_after_generate GablorkenOutputSchema.t (inr response)
           = inl (NameError "json"))
  /\ (forall h : HelloSchema.t, fst (say_hi_constrained' hi_input tr) <> inr h)
  /\ (forall g : GablorkenOutputSchema.t,
        fst (calculate_gablorken' value tr) <> inr g)
  /\ script' "__main__" tr = (inl (NameError "asyncio"), tr)
  /\ is_bound "json" = false
  /\ is_bound "asyncio" = false.
Proof.
  rewrite say_hi_constrained_run, calculate_gablorken_run. cbn [fst].
  split; [reflexivity |].
  split; [destruct (int_str_bound <=? Z.abs value); reflexivity |].
  split.
  { intros sender part rest. split; reflexivity. }
  split; [intros h; apply outcome_after_generate_raises |].
  split.
  { intros g. destruct (int_str_bound <=? Z.abs value); cbn [fst];
      [discriminate | apply outcome_after_generate_raises]. }
  repeat split.
Qed.

End FlowProperties.

(** ** The tool *)

(** C1: [gablorken_tool] returns [n * 3 - 5] for every integer [n]; it maps
    3 to 4, 0 to -5 and -1 to -8. *)
Theorem gablorken_tool_spec :
  (forall n : Z, gablorken_tool n = n * 3 - 5)
  /\ gablorken_tool 3 = 4
  /\ gablorken_tool 0 = -5
  /\ gablorken_tool (-1) = -8
  /\ map tool_fn registered_tools = [ gablorken_tool ].
Proof. repeat split. Qed.

(** C9: [gablorken_tool] is strictly increasing and injective on the
    integers. *)
Theorem gablorken_tool_strictly_increasing_injective :
  (forall a b : Z, a < b -> gablorken_tool a < gablorken_tool b)
  /\ (forall a b : Z, gablorken_tool a = gablorken_tool b -> a = b).
Proof.
  unfold gablorken_tool. split; intros a b H; lia.
Qed.

Lemma gablorken_tool_strictly_increasing_injective_witness :
  (-1 < 3 /\ gablorken_tool (-1) < gablorken_tool 3)
  /\ (gablorken_tool (1 + 2) = gablorken_tool 3 /\ 1 + 2 = 3).
Proof.
  split; split.
  - lia.
  - apply (proj1 gablorken_tool_strictly_increasing_injective (-1) 3). lia.
  - reflexivity.
  - apply (proj2 gablorken_tool_strictly_increasing_injective (1 + 2) 3).
    reflexivity.
Defined.

(** ** Runs against concrete backends *)

Lemma flows_propagate_backend_failure_witness :
  let e := BackendError "connection refused" in
  let backend := failing_backend e in
  (backend [] (say_hi_request ollama_prefix "John Doe") = inl e
   /\ say_hi ollama_prefix backend "John Doe" []
      = (inl e, [Generated (say_hi_request ollama_prefix "John Doe")]))
  /\ (backend [] (say_hi_constrained_request "John Doe") = inl e
      /\ say_hi_constrained backend rejecting_loads
           (fun _ => inl (ValidationError HelloSchema_cls)) "John Doe" []
         = (inl e, [Generated (say_hi_constrained_request "John Doe")]))
  /\ (Z.abs 3 < int_str_bound
      /\ backend [] (calculate_gablorken_request ollama_prefix 3) = inl e
      /\ calculate_gablorken ollama_prefix backend rejecting_loads
           (fun _ => inl (ValidationError GablorkenOutputSchema_cls)) 3 []
         = (inl e, [Generated (calculate_gablorken_request ollama_prefix 3)])).
Proof.
  intros e backend.
  pose proof
    (flows_propagate_backend_failure ollama_prefix backend unit
       rejecting_loads (fun _ => inl (ValidationError HelloSchema_cls))
       (fun _ => inl (ValidationError GablorkenOutputSchema_cls))
       e "John Doe" 3 []) as [H1 [H2 H3]].
  split; [| split].
  - split; [reflexivity |]. apply H1. reflexivity.
  - split; [reflexivity |]. apply H2. reflexivity.
  - split; [vm_compute; reflexivity |]. split; [reflexivity |].
    apply H3; [vm_compute; reflexivity | reflexivity].
Defined.

(** Beyond the digit limit [calculate_gablorken] raises while it formats the
    instruction: the backend is not called, so the number of calls of that
    invocation is not one. *)
Lemma calculate_gablorken_beyond_digit_limit_makes_no_call :
  calculate_gablorken ollama_prefix (respond_with gablorken_json)
    rejecting_loads
    (fun _ => inl (ValidationError GablorkenOutputSchema_cls)) (10 ^ 4300) []
  = (inl ValueError, [])
  /\ length
       (generate_calls
          (snd (calculate_gablorken ollama_prefix
                  (respond_with gablorken_json) rejecting_loads
                  (fun _ => inl (ValidationError GablorkenOutputSchema_cls))
                  (10 ^ 4300) [])))
     <> 1%nat.
Proof.
  rewrite calculate_gablorken_run, int_str_bound_beyond.
  split; [reflexivity | discriminate].
Qed.

Lemma one_backend_call_per_invocation_witness :
  (Z.abs 3 < int_str_bound
   /\ calculate_gablorken ollama_prefix (respond_with gablorken_json)
        rejecting_loads
        (fun _ => inl (ValidationError GablorkenOutputSchema_cls)) 3 []
      = (inl (NameError "json"),
         [Generated (calculate_gablorken_request ollama_prefix 3)]))
  /\ (int_str_bound <= Z.abs (10 ^ 4300)
      /\ calculate_gablorken ollama_prefix (respond_with gablorken_json)
           rejecting_loads
           (fun _ => inl (ValidationError GablorkenOutputSchema_cls))
           (10 ^ 4300) []
         = (inl ValueError, [])).
Proof.
  split.
  - split; [vm_compute; reflexivity |].
    apply (proj1 (proj2 (proj2 (proj1
             (one_backend_call_per_invocation ollama_prefix
                (respond_with gablorken_json) unit rejecting_loads
                (fun _ => inl (ValidationError HelloSchema_cls))
                (fun _ => inl (ValidationError GablorkenOutputSchema_cls))
                "John Doe" 3 []))))).
    vm_compute. reflexivity.
  - split; [vm_compute; discriminate |].
    apply (proj2 (proj2 (proj2 (proj1
             (one_backend_call_per_invocation ollama_prefix
                (respond_with gablorken_json) unit rejecting_loads
                (fun _ => inl (ValidationError HelloSchema_cls))
                (fun _ => inl (ValidationError GablorkenOutputSchema_cls))
                "John Doe" (10 ^ 4300) []))))).
    vm_compute. discriminate.
Defined.

(** C3: [say_hi_constrained("John Doe")], answered with the text
    [{"text": "hi John Doe", "receiver": "John Doe"}], raises [NameError]
    for [json] instead of returning the record, whatever [json.loads] and
    [HelloSchema.model_validate] would do with that text. *)
Theorem say_hi_constrained_John_Doe_raises :
  forall (JSON : Type) (json_loads : string -> Exn + JSON)
         (HelloSchema_model_validate : JSON -> Exn + HelloSchema.t)
         (tr : Trace),
    say_hi_constrained (respond_with hello_json) json_loads
      HelloSchema_model_validate "John Doe" tr
    = (inl (NameError "json"),
       tr ++ [Generated (say_hi_constrained_request "John Doe")]).
Proof. reflexivity. Qed.

(** C4: [calculate_gablorken(3)], answered with the text [{"result": 4}],
    sends one request that names [gablorken_tool] and the value 3, lists the
    registered tool, asks for [GablorkenOutputSchema] and addresses the
    second configured model (mistral-nemo); it then raises [NameError] for
    [json] instead of returning the record with result 4. *)
Theorem calculate_gablorken_3_raises :
  forall (ollama_name : string -> string)
         (JSON : Type) (json_loads : string -> Exn + JSON)
         (GablorkenOutputSchema_model_validate :
            JSON -> Exn + GablorkenOutputSchema.t)
         (tr : Trace),
    let req := calculate_gablorken_request ollama_name 3 in
    calculate_gablorken ollama_name (respond_with gablorken_json) json_loads
      GablorkenOutputSchema_model_validate 3 tr
    = (inl (NameError "json"), tr ++ [Generated req])
    /\ map (fun m => map text (content m)) (messages req)
       = [ [ ("run " ++ dquote ++ "gablorken_tool" ++ dquote ++ " for 3")%string ] ]
    /\ tools req = Some (map tool_name registered_tools)
    /\ output_schema req = Some GablorkenOutputSchema_cls
    /\ model req = Some (ollama_name MISTRAL_MODEL)
    /\ nth_error (map name (models plugin_params)) 1 = Some MISTRAL_MODEL
    /\ MISTRAL_MODEL = "mistral-nemo:latest"
    /\ gablorken_tool 3 = 4.
Proof.
  intros. split.
  - rewrite calculate_gablorken_run, three_below_int_str_bound. reflexivity.
  - repeat split.
Qed.

(** C5: answered with any text at all, in particular one that is not JSON,
    [say_hi_constrained] raises [NameError] for [json]; [json.loads] is never
    called, so the exception is neither a decoding nor a validation error.
    No record is returned. *)
Theorem say_hi_constrained_malformed_raises_NameError :
  forall (JSON : Type) (json_loads : string -> Exn + JSON)
         (HelloSchema_model_validate : JSON -> Exn + HelloSchema.t)
         (raw hi_input : string) (tr : Trace),
    fst (say_hi_constrained (respond_with raw) json_loads
           HelloSchema_model_validate hi_input tr)
    = inl (NameError "json")
    /\ NameError "json" <> JSONDecodeError raw
    /\ NameError "json" <> ValidationError HelloSchema_cls
    /\ fst (say_hi_constrained (respond_with "not json") rejecting_loads
              (fun _ => inl (ValidationError HelloSchema_cls)) hi_input tr)
       = inl (NameError "json").
Proof. intros. repeat split; discriminate. Qed.

(** C6: [main] never gets to [calculate_gablorken].  Against a backend that
    answers every request, it calls the backend for [say_hi], prints the
    response, calls the backend for [say_hi_constrained] and raises
    [NameError] for [json]: two calls, one line printed.  Against any
    backend it makes at most two calls and does not return.  Run as a
    script, the module raises [NameError] for [asyncio] and calls nothing. *)
Theorem main_stops_after_two_calls :
  forall (ollama_name : string -> string)
         (JSON : Type) (json_loads : string -> Exn + JSON)
         (HelloSchema_model_validate : JSON -> Exn + HelloSchema.t)
         (GablorkenOutputSchema_model_validate :
            JSON -> Exn + GablorkenOutputSchema.t),
    main ollama_name (respond_with hello_json) json_loads
      HelloSchema_model_validate GablorkenOutputSchema_model_validate []
    = (inl (NameError "json"),
       [ Generated (say_hi_request ollama_name "John Doe");
         Printed (VResponse (reply hello_json));
         Generated (say_hi_constrained_request "John Doe") ])
    /\ script ollama_name (respond_with hello_json) json_loads
         HelloSchema_model_validate GablorkenOutputSchema_model_validate
         "__main__" []
       = (inl (NameError "asyncio"), [])
    /\ (forall (generate_backend :
                  Trace -> GenerateRequest -> Exn + GenerateResponse)
               (tr : Trace),
          let run :=
            main ollama_name generate_backend json_loads
              HelloSchema_model_validate GablorkenOutputSchema_model_validate
              tr in
          fst run <> inr tt
          /\ (length (generate_calls (snd run))
                <= 2 + length (generate_calls tr))%nat).
Proof.
  intros. split; [reflexivity |]. split; [reflexivity |].
  intros generate_backend tr run. subst run. rewrite main_run.
  destruct (generate_backend tr _) as [e | r1]; cbn [fst snd].
  - split; [discriminate |]. rewrite generate_calls_snoc, length_app. simpl. lia.
  - split; [apply outcome_after_generate_raises |].
    rewrite generate_calls_snoc, generate_calls_printed, generate_calls_snoc.
    rewrite !length_app. simpl. lia.
Qed.

(** * Further properties of the sample *)

(** ** The instruction text and the requests *)

Lemma to_int_not_nil (value : Z) :
  Z.to_int value <> Decimal.Pos Decimal.Nil
  /\ Z.to_int value <> Decimal.Neg Decimal.Nil.
Proof.
  destruct value as [| p | p]; simpl; split; try discriminate;
    intros [= H]; now apply (DecimalPos.Unsigned.to_uint_nonnil p).
Qed.

(** Different integers have different digits. *)
Lemma str_int_inj (a b : Z) : str_int a = str_int b -> a = b.
Proof.
  unfold str_int. intros H.
  apply (f_equal NilZero.int_of_string) in H.
  destruct (to_int_not_nil a) as [Ha1 Ha2], (to_int_not_nil b) as [Hb1 Hb2].
  rewrite !NilZero.isi in H by assumption.
  injection H as H. now apply DecimalZ.to_int_inj.
Qed.

(** X6: a request tells which flow sent it and with which input: two
    invocations that send the same request are the same flow called with the
    same argument. *)
Theorem request_determines_flow_and_input
    (ollama_name : string -> string) (f1 f2 : Flow) :
  request_of ollama_name f1 = request_of ollama_name f2 -> f1 = f2.
Proof.
  destruct f1 as [a | a | a], f2 as [b | b | b]; simpl;
    unfold say_hi_request, say_hi_constrained_request,
      calculate_gablorken_request, greeting;
    intros H; try discriminate.
  - injection H as H. now subst.
  - injection H as H. now subst.
  - injection H as H. f_equal. now apply str_int_inj.
Qed.

Lemma request_determines_flow_and_input_witness :
  request_of ollama_prefix (CalculateGablorken (1 + 2))
    = request_of ollama_prefix (CalculateGablorken 3)
  /\ CalculateGablorken (1 + 2) = CalculateGablorken 3.
Proof.
  split; [reflexivity |].
  apply (request_determines_flow_and_input ollama_prefix). reflexivity.
Defined.

(** X9: whatever the input, every model a flow names is the key of a model
    the plugin was configured with, a chat model; and the model [say_hi]
    names is the default model [ai] was built with. *)
Theorem flows_name_configured_models
    (ollama_name : string -> string) (f : Flow) :
  (forall m : string,
     model (request_of ollama_name f) = Some m ->
     exists md : ModelDefinition,
       In md (models plugin_params)
       /\ m = ollama_name (name md) /\ api_type md = CHAT)
  /\ (forall hi_input : string,
        model (say_hi_request ollama_name hi_input)
        = Some (default_model (ai ollama_name))).
Proof.
  split.
  - intros m H. destruct f; simpl in H; try discriminate; injection H as <-.
    + exists {| name := GEMMA_MODEL; api_type := CHAT |}. simpl. auto.
    + exists {| name := MISTRAL_MODEL; api_type := CHAT |}. simpl. auto.
  - reflexivity.
Qed.

Lemma flows_name_configured_models_witness :
  model (request_of ollama_prefix (CalculateGablorken 3))
    = Some "ollama/mistral-nemo:latest"
  /\ exists md : ModelDefinition,
       In md (models plugin_params)
       /\ "ollama/mistral-nemo:latest" = ollama_prefix (name md)
       /\ api_type md = CHAT.
Proof.
  split; [reflexivity |].
  apply (proj1 (flows_name_configured_models ollama_prefix
                  (CalculateGablorken 3))).
  reflexivity.
Defined.

(** ** The tool, inverted *)

(** X8: the tool can be undone: [(r + 5) // 3] gives back the input of the
    output [r]; the outputs are exactly the integers that leave remainder 1
    when divided by 3; and no integer is mapped to itself. *)
Theorem gablorken_tool_inverse_and_image :
  (forall n : Z, (gablorken_tool n + 5) / 3 = n)
  /\ (forall n : Z, gablorken_tool n mod 3 = 1)
  /\ (forall r : Z, r mod 3 = 1 -> gablorken_tool ((r + 5) / 3) = r)
  /\ (forall n : Z, gablorken_tool n <> n).
Proof.
  unfold gablorken_tool.
  repeat split; intros; Z.to_euclidean_division_equations; lia.
Qed.

Lemma gablorken_tool_inverse_and_image_witness :
  (-8) mod 3 = 1 /\ gablorken_tool ((-8 + 5) / 3) = -8.
Proof.
  split; [reflexivity |].
  apply (proj1 (proj2 (proj2 gablorken_tool_inverse_and_image))).
  reflexivity.
Defined.

(** ** The flows on an empty response, and the driver *)

Lemma printed_values_app (tr1 tr2 : Trace) :
  printed_values (tr1 ++ tr2) = printed_values tr1 ++ printed_values tr2.
Proof.
  induction tr1 as [| [req | v] tr1 IH]; simpl.
  - reflexivity.
  - exact IH.
  - now rewrite IH.
Qed.

Section DriverProperties.

Variable ollama_name : string -> string.
Variable generate_backend : Trace -> GenerateRequest -> Exn + GenerateResponse.
Variable JSON : Type.
Variable json_loads : string -> Exn + JSON.
Variable HelloSchema_model_validate : JSON -> Exn + HelloSchema.t.
Variable GablorkenOutputSchema_model_validate :
  JSON -> Exn + GablorkenOutputSchema.t.

Local Abbreviation run_main :=
  (main ollama_name generate_backend json_loads HelloSchema_model_validate
     GablorkenOutputSchema_model_validate).

(** X1: when the backend's response has no content part, the subscript
    [content[0]] fails: [say_hi_constrained] and [calculate_gablorken] raise
    [IndexError], after their one call, before any name of the last line is
    looked up.  ([calculate_gablorken] gets no response, and raises
    [ValueError], when its value has more than 4300 digits.) *)
Theorem empty_content_raises_IndexError
    (hi_input : string) (value : Z) (tr : Trace) (response : GenerateResponse)
    (Hempty : content (message response) = []) :
  (generate_backend tr (say_hi_constrained_request hi_input) = inr response ->
   say_hi_constrained generate_backend json_loads HelloSchema_model_validate
     hi_input tr
   = (inl IndexError, tr ++ [Generated (say_hi_constrained_request hi_input)]))
  /\ (generate_backend tr (calculate_gablorken_request ollama_name value)
        = inr response ->
      calculate_gablorken ollama_name generate_backend json_loads
        GablorkenOutputSchema_model_validate value tr
      = if int_str_bound <=? Z.abs value then (inl ValueError, tr)
        else
          (inl IndexError,
           tr ++ [Generated (calculate_gablorken_request ollama_name value)])).
Proof.
  rewrite say_hi_constrained_run, calculate_gablorken_run.
  split; intros ->; unfold outcome_after_generate; rewrite Hempty;
    reflexivity.
Qed.

(** X2: the requests [main] sends are the [say_hi] request for "John Doe"
    and, only if that call returned, the [say_hi_constrained] request for
    "John Doe", in this order; no request of [calculate_gablorken] is ever
    sent. *)
Theorem main_backend_calls (tr : Trace) :
  generate_calls (snd (run_main tr))
  = generate_calls tr
      ++ say_hi_request ollama_name "John Doe"
         :: match generate_backend tr (say_hi_request ollama_name "John Doe")
            with
            | inl _ => []
            | inr _ => [ say_hi_constrained_request "John Doe" ]
            end.
Proof.
  rewrite main_run.
  destruct (generate_backend tr _) as [e | r1]; cbn [snd].
  - apply generate_calls_snoc.
  - rewrite generate_calls_snoc, generate_calls_printed, generate_calls_snoc.
    now rewrite <- app_assoc.
Qed.

(** X3: [main] prints at most one thing: the raw response of [say_hi], if
    that call returned, and nothing if it raised; no parsed record is ever
    printed. *)
Theorem main_prints_only_the_raw_response (tr : Trace) :
  printed_values (snd (run_main tr))
  = printed_values tr
      ++ match generate_backend tr (say_hi_request ollama_name "John Doe")
         with
         | inl _ => []
         | inr r1 => [ VResponse r1 ]
         end.
Proof.
  rewrite main_run.
  destruct (generate_backend tr _) as [e | r1]; cbn [snd].
  - rewrite printed_values_app. reflexivity.
  - rewrite !printed_values_app. simpl. now rewrite !app_nil_r.
Qed.

(** X4: [main] has no handler of its own: if the call made for [say_hi]
    raises [e], [main] raises [e]; if it returns and the call made for
    [say_hi_constrained] raises [e], [main] raises [e].  The flows [main]
    awaits are the functions as [ai_flow] exposes them. *)
Theorem main_propagates_backend_failure
    (e : Exn) (tr : Trace) :
  (generate_backend tr (say_hi_request ollama_name "John Doe") = inl e ->
   fst (run_main tr) = inl e)
  /\ (forall r1 : GenerateResponse,
        generate_backend tr (say_hi_request ollama_name "John Doe") = inr r1 ->
        generate_backend
          ((tr ++ [Generated (say_hi_request ollama_name "John Doe")])
             ++ [Printed (VResponse r1)])
          (say_hi_constrained_request "John Doe") = inl e ->
        fst (run_main tr) = inl e).
Proof.
  rewrite main_run. split.
  - intros ->. reflexivity.
  - intros r1 -> H. cbv zeta. cbn [fst]. now rewrite H.
Qed.

(** X5: whatever the module is run as, its last statement calls no backend
    and prints nothing: under the name [__main__] it raises [NameError] for
    [asyncio] before [main()] is evaluated, under any other name the
    condition is false and it does nothing. *)
Theorem script_has_no_effect (dunder_name : string) (tr : Trace) :
  script ollama_name generate_backend json_loads HelloSchema_model_validate
    GablorkenOutputSchema_model_validate dunder_name tr
  = (if String.eqb dunder_name "__main__"
     then inl (NameError "asyncio") else inr tt,
     tr).
Proof.
  unfold script. destruct (String.eqb dunder_name "__main__"); reflexivity.
Qed.

End DriverProperties.

Lemma empty_content_raises_IndexError_witness :
  content (message empty_reply) = []
  /\ say_hi_constrained respond_empty rejecting_loads
       (fun _ => inl (ValidationError HelloSchema_cls)) "John Doe" []
     = (inl IndexError, [Generated (say_hi_constrained_request "John Doe")])
  /\ calculate_gablorken ollama_prefix respond_empty rejecting_loads
       (fun _ => inl (ValidationError GablorkenOutputSchema_cls)) 3 []
     = (inl IndexError,
        [Generated (calculate_gablorken_request ollama_prefix 3)]).
Proof.
  pose proof
    (empty_content_raises_IndexError ollama_prefix respond_empty unit
       rejecting_loads (fun _ => inl (ValidationError HelloSchema_cls))
       (fun _ => inl (ValidationError GablorkenOutputSchema_cls))
       "John Doe" 3 [] empty_reply eq_refl) as [H1 H2].
  split; [reflexivity | split].
  - apply H1. reflexivity.
  - specialize (H2 eq_refl). rewrite three_below_int_str_bound in H2.
    exact H2.
Defined.

Lemma main_propagates_backend_failure_witness :
  let e := BackendError "connection refused" in
  (failing_backend e [] (say_hi_request ollama_prefix "John Doe") = inl e
   /\ fst (main ollama_prefix (failing_backend e) rejecting_loads
             (fun _ => inl (ValidationError HelloSchema_cls))
             (fun _ => inl (ValidationError GablorkenOutputSchema_cls)) [])
      = inl e)
  /\ (fail_after_first e hello_json []
        (say_hi_request ollama_prefix "John Doe")
      = inr (reply hello_json)
      /\ fail_after_first e hello_json
           [ Generated (say_hi_request ollama_prefix "John Doe");
             Printed (VResponse (reply hello_json)) ]
           (say_hi_constrained_request "John Doe")
         = inl e
      /\ fst (main ollama_prefix (fail_after_first e hello_json)
                rejecting_loads
                (fun _ => inl (ValidationError HelloSchema_cls))
                (fun _ => inl (ValidationError GablorkenOutputSchema_cls)) [])
         = inl e).
Proof.
  intros e. split.
  - split; [reflexivity |].
    apply (proj1
             (main_propagates_backend_failure ollama_prefix
                (failing_backend e) unit rejecting_loads
                (fun _ => inl (ValidationError HelloSchema_cls))
                (fun _ => inl (ValidationError GablorkenOutputSchema_cls))
                e [])).
    reflexivity.
  - split; [reflexivity |]. split; [reflexivity |].
    apply (proj2
             (main_propagates_backend_failure ollama_prefix
                (fail_after_first e hello_json) unit rejecting_loads
                (fun _ => inl (ValidationError HelloSchema_cls))
                (fun _ => inl (ValidationError GablorkenOutputSchema_cls))
                e [])
             (reply hello_json)); reflexivity.
Defined.
